(** * Inverted pendulum on a cart: the control and physics tick of [main.py]

    The development embeds the class [InvertedPendulum] of [src/main.py]:
    the object's attributes are a record, every method is a function that
    takes the object and returns the mutated object, and the two host
    services the tick polls ([pyxel.btnp] and [pyxel.btn]) are a per-frame
    record of key states.

    Numbers.  Python's [float] is idealised as the real numbers of the
    Standard Library: rounding, overflow, infinities and NaN are outside the
    model, [math.pi] is the real [PI], [math.sin] and [math.cos] are the real
    functions.  The one float operation that can raise, division, is kept
    fallible ([ZeroDivisionError]).  [min] and [max] follow CPython's
    two-argument semantics (the first argument is kept unless the second is
    strictly smaller, resp. strictly larger).

    The properties below are the ones that do not lean on exact real
    arithmetic: ranges and clamps, branches, which attributes an operation
    reads and writes, and equations that are the code's own operations in
    the code's own order.  Identities that rounding breaks (a shift by a
    whole turn, a rest position that needs [cos] to vanish) are left out. *)

From Stdlib Require Import String.
From Stdlib Require Import Reals Lra Lia ZArith List Bool.
From Equations Require Import Equations.
Import ListNotations.

Local Open Scope R_scope.

(** ** Python and host primitives *)

(** What a method call can end in: a value, an exception, or the end of the
    process ([pyxel.quit()]). *)
Inductive exn : Type :=
| ZeroDivisionError
| TypeError.

Inductive outcome (A : Type) : Type :=
| Return (a : A)
| Raise (e : exn)
| Exit.

Arguments Return {A} a.
Arguments Raise {A} e.
Arguments Exit {A}.

Definition bind {A B : Type} (c : outcome A) (k : A -> outcome B) : outcome B :=
  match c with
  | Return a => k a
  | Raise e => Raise e
  | Exit => Exit
  end.

Notation "x <- c ;; k" := (bind c (fun x => k))
  (at level 61, c at next level, right associativity).

Module py.

(** [min(a, b)]: [b] replaces [a] only when [b < a]. *)
Definition min (a b : R) : R := if Rlt_dec b a then b else a.

(** [max(a, b)]: [b] replaces [a] only when [b > a]. *)
Definition max (a b : R) : R := if Rgt_dec b a then b else a.

(** [a / b] on floats. *)
Definition div (a b : R) : outcome R :=
  if Req_dec_T b 0 then Raise ZeroDivisionError else Return (a / b).

End py.

Module math.

Definition pi : R := PI.
Definition sin : R -> R := Rtrigo_def.sin.
Definition cos : R -> R := Rtrigo_def.cos.

End math.

Module pyxel.

(** The keys the program polls. *)
Inductive key : Type :=
| KEY_Q
| KEY_SPACE
| KEY_LEFT
| KEY_RIGHT.

(** The keyboard as one frame sees it: [btnp] is true on the frame a key
    goes down, [btn] while it is held. *)
Record frame : Type := mkframe {
  btnp : key -> bool;
  btn : key -> bool
}.

(** The drawing calls [draw] makes, with their arguments in source order;
    the last argument is the colour. *)
Inductive call : Type :=
| cls (col : Z)
| line (x1 y1 x2 y2 : R) (col : Z)
| rect (x y w h : R) (col : Z)
| circ (x y r : R) (col : Z)
| text (x y : R) (s : string) (col : Z).

End pyxel.

(** ** The object *)

Module self.

(** The attributes assigned in [__init__] (lines 10-32). *)
Record t : Type := mk {
  g : R;
  m : R;
  l : R;
  dt : R;
  Kp : R;
  Ki : R;
  Kd : R;
  integral_error : R;
  prev_error : R;
  auto_control : bool;
  theta : R;
  omega : R;
  cart_x : R;
  cart_v : R;
  force : R
}.

(** Attribute assignment, one setter for each attribute the methods write. *)
Definition set_integral_error (s : t) (v : R) : t :=
  mk (g s) (m s) (l s) (dt s) (Kp s) (Ki s) (Kd s) v (prev_error s)
     (auto_control s) (theta s) (omega s) (cart_x s) (cart_v s) (force s).

Definition set_auto_control (s : t) (v : bool) : t :=
  mk (g s) (m s) (l s) (dt s) (Kp s) (Ki s) (Kd s) (integral_error s)
     (prev_error s) v (theta s) (omega s) (cart_x s) (cart_v s) (force s).

Definition set_theta (s : t) (v : R) : t :=
  mk (g s) (m s) (l s) (dt s) (Kp s) (Ki s) (Kd s) (integral_error s)
     (prev_error s) (auto_control s) v (omega s) (cart_x s) (cart_v s)
     (force s).

Definition set_omega (s : t) (v : R) : t :=
  mk (g s) (m s) (l s) (dt s) (Kp s) (Ki s) (Kd s) (integral_error s)
     (prev_error s) (auto_control s) (theta s) v (cart_x s) (cart_v s)
     (force s).

Definition set_cart_x (s : t) (v : R) : t :=
  mk (g s) (m s) (l s) (dt s) (Kp s) (Ki s) (Kd s) (integral_error s)
     (prev_error s) (auto_control s) (theta s) (omega s) v (cart_v s)
     (force s).

Definition set_cart_v (s : t) (v : R) : t :=
  mk (g s) (m s) (l s) (dt s) (Kp s) (Ki s) (Kd s) (integral_error s)
     (prev_error s) (auto_control s) (theta s) (omega s) (cart_x s) v
     (force s).

End self.

Definition InvertedPendulum : Type := self.t.

(** [__init__], lines 10-32: the object as it stands when [pyxel.run] is
    entered.  The constructor has no parameter besides [self]. *)
Definition __init__ : InvertedPendulum :=
  {| self.g := 9.81;
     self.m := 1.0;
     self.l := 30.0;
     self.dt := 1 / 60;
     self.Kp := 1000.0;
     self.Ki := 0.1;
     self.Kd := 300.0;
     self.integral_error := 0.0;
     self.prev_error := 0.0;
     self.auto_control := true;
     self.theta := math.pi / 2 + 0.1;
     self.omega := 0.0;
     self.cart_x := 80;
     self.cart_v := 0;
     self.force := 100.0 |}.

(** The arguments of a call [InvertedPendulum(...)]: positional values and
    keyword values. *)
Record arguments : Type := mkargs {
  positional : list R;
  keywords : list (string * R)
}.

(** [InvertedPendulum(...)], lines 4-5 and 132: [__init__] is declared with
    [self] alone, so Python binds no argument to it and a call that passes
    any raises [TypeError] before the body runs; a call without arguments
    runs the body, which reads none of its values from the caller. *)
Definition construct (a : arguments) : outcome InvertedPendulum :=
  match positional a, keywords a with
  | [], [] => Return __init__
  | _, _ => Raise TypeError
  end.

(** ** [normalize_angle], lines 36-42 *)

(** Number of passes a loop that moves its variable by [2 * pi] needs to
    cover the distance [d]; the termination measure of both loops. *)
Definition passes (d : R) : nat := Z.to_nat (up (d / (2 * PI))).

Ltac passes_decrease :=
  match goal with
  | |- (passes ?a < passes ?d)%nat =>
      let Hpi := fresh "Hpi" in
      let Hq := fresh "Hq" in
      let Hup := fresh "Hup" in
      assert (Hpi : 0 < 2 * PI) by (pose proof PI_RGT_0; lra);
      assert (Hq : 0 < d / (2 * PI)) by (apply Rdiv_lt_0_compat; lra);
      unfold passes;
      replace (a / (2 * PI)) with (d / (2 * PI) - 1) by (field; lra);
      assert (Hup : (up (d / (2 * PI) - 1) = up (d / (2 * PI)) - 1)%Z)
        by (symmetry; apply tech_up; rewrite minus_IZR;
            pose proof (archimed (d / (2 * PI))); lra);
      rewrite Hup;
      assert (0 < up (d / (2 * PI)))%Z
        by (apply lt_IZR; pose proof (archimed (d / (2 * PI))); lra);
      lia
  end.

(** [while angle > math.pi: angle -= 2 * math.pi] *)
Equations? while_above (angle : R) : R by wf (passes (angle - math.pi)) lt :=
  while_above angle with Rgt_dec angle math.pi := {
    | left _ => while_above (angle - 2 * math.pi);
    | right _ => angle }.
Proof.
  unfold math.pi in *. passes_decrease.
Qed.

(** [while angle < -math.pi: angle += 2 * math.pi] *)
Equations? while_below (angle : R) : R by wf (passes (- math.pi - angle)) lt :=
  while_below angle with Rlt_dec angle (- math.pi) := {
    | left _ => while_below (angle + 2 * math.pi);
    | right _ => angle }.
Proof.
  unfold math.pi in *. passes_decrease.
Qed.

Definition normalize_angle (angle : R) : R :=
  let angle := while_above angle in
  let angle := while_below angle in
  angle.

(** ** [calculate_control], lines 44-60 *)

(** Returns the control force and the object with its integral updated. *)
Definition calculate_control (s : InvertedPendulum) : R * InvertedPendulum :=
  let error := normalize_angle (self.theta s - (- math.pi / 2)) in
  let s :=
    self.set_integral_error s
      (py.max (-5.0) (py.min 5.0 (self.integral_error s + error * self.dt s))) in
  let derivative := self.omega s in
  let control :=
    self.Kp s * error + self.Ki s * self.integral_error s
    + self.Kd s * derivative in
  (py.max (- self.force s) (py.min (self.force s) control), s).

(** ** [update], lines 62-104 *)

(** Lines 68-70: the mode switch on SPACE. *)
Definition toggle_control (s : InvertedPendulum) : InvertedPendulum :=
  let s := self.set_auto_control s (negb (self.auto_control s)) in
  let s := self.set_integral_error s 0 in
  s.

(** Lines 79-82, with [force = 0] of line 73 before them. *)
Definition manual_force (k : pyxel.frame) (s : InvertedPendulum) : R :=
  let force := 0 in
  let force :=
    if pyxel.btn k pyxel.KEY_LEFT then - self.force s else force in
  let force :=
    if pyxel.btn k pyxel.KEY_RIGHT then self.force s else force in
  force.

(** Lines 73-82: the force of this frame. *)
Definition resolve_force (k : pyxel.frame) (s : InvertedPendulum)
  : R * InvertedPendulum :=
  if self.auto_control s then calculate_control s else (manual_force k s, s).

(** Lines 86-104: the equations of motion and the cart. *)
Definition integrate (force : R) (s : InvertedPendulum)
  : outcome InvertedPendulum :=
  let sin_theta := math.sin (self.theta s) in
  let cos_theta := math.cos (self.theta s) in
  torque <- py.div (force * sin_theta) (self.m s) ;;
  alpha <- py.div (- self.g s * cos_theta + torque) (self.l s) ;;
  let s := self.set_omega s (self.omega s + alpha * self.dt s) in
  let damping := 0.1 in
  let s := self.set_omega s (self.omega s * (1.0 - damping * self.dt s)) in
  let s := self.set_theta s (self.theta s + self.omega s * self.dt s) in
  cart_v <- py.div (force * self.dt s) (self.m s) ;;
  let s := self.set_cart_v s cart_v in
  let s := self.set_cart_x s (self.cart_x s + self.cart_v s) in
  let s := self.set_cart_x s (py.max 20 (py.min 140 (self.cart_x s))) in
  Return s.

Definition update (k : pyxel.frame) (s : InvertedPendulum)
  : outcome InvertedPendulum :=
  if pyxel.btnp k pyxel.KEY_Q then Exit
  else
    let s := if pyxel.btnp k pyxel.KEY_SPACE then toggle_control s else s in
    let (force, s) := resolve_force k s in
    integrate force s.

(** [pyxel.run(self.update, self.draw)], line 34: one [update] for each
    frame until a call does not return.  [draw] writes no attribute.  The
    result is the object after each completed tick. *)
Fixpoint run (ks : list pyxel.frame) (s : InvertedPendulum)
  : list InvertedPendulum :=
  match ks with
  | [] => []
  | k :: ks' =>
      match update k s with
      | Return s' => s' :: run ks' s'
      | Raise _ => []
      | Exit => []
      end
  end.

(** ** [draw], lines 106-129 *)

(** The calls of one [draw], in order.  [draw] assigns no attribute. *)
Definition draw (s : InvertedPendulum) : list pyxel.call :=
  let pendulum_x := self.cart_x s + self.l s * math.cos (self.theta s) in
  let pendulum_y := 95 - self.l s * math.sin (self.theta s) in
  let mode_text :=
    if self.auto_control s then "Auto Control"%string
    else "Manual Control"%string in
  [ pyxel.cls 7;
    pyxel.line 0 100 160 100 0;
    pyxel.rect (self.cart_x s - 10) 90 20 10 5;
    pyxel.line (self.cart_x s) 95 pendulum_x pendulum_y 0;
    pyxel.circ pendulum_x pendulum_y 3 8;
    pyxel.text 5 5 "LEFT/RIGHT: Apply Force" 0;
    pyxel.text 5 15 "SPACE: Toggle Control Mode" 0;
    pyxel.text 5 25 "Q: Quit" 0;
    pyxel.text 5 35 mode_text 0 ].

(** ** Vocabulary of the properties *)

(** [clamp(x, lo, hi)] of the design document. *)
Definition clamp (x lo hi : R) : R := Rmax lo (Rmin hi x).

(** The integrator as the design document words it (section 4.2): the six
    equations, each reading the values the previous ones produced. *)
Definition step_spec (s : InvertedPendulum) (force : R) : InvertedPendulum :=
  let alpha :=
    (- self.g s * cos (self.theta s) + force * sin (self.theta s) / self.m s)
    / self.l s in
  let omega' := self.omega s + alpha * self.dt s in
  let omega'' := omega' * (1 - 0.1 * self.dt s) in
  let theta' := self.theta s + omega'' * self.dt s in
  let cart_v' := force * self.dt s / self.m s in
  let cart_x' := clamp (self.cart_x s + cart_v') 20 140 in
  {| self.g := self.g s;
     self.m := self.m s;
     self.l := self.l s;
     self.dt := self.dt s;
     self.Kp := self.Kp s;
     self.Ki := self.Ki s;
     self.Kd := self.Kd s;
     self.integral_error := self.integral_error s;
     self.prev_error := self.prev_error s;
     self.auto_control := self.auto_control s;
     self.theta := theta';
     self.omega := omega'';
     self.cart_x := cart_x';
     self.cart_v := cart_v';
     self.force := self.force s |}.

(** The error the controller sees: the angle to the target [-pi / 2]. *)
Definition error_of (s : InvertedPendulum) : R :=
  normalize_angle (self.theta s - (- PI / 2)).

(** The object after the mode switch of this frame. *)
Definition switched (k : pyxel.frame) (s : InvertedPendulum)
  : InvertedPendulum :=
  if pyxel.btnp k pyxel.KEY_SPACE then toggle_control s else s.

(** The object a tick that returns leaves behind. *)
Definition next (k : pyxel.frame) (s : InvertedPendulum) : InvertedPendulum :=
  step_spec (snd (resolve_force k (switched k s)))
            (fst (resolve_force k (switched k s))).

(** The attributes no method assigns. *)
Definition same_config (a b : InvertedPendulum) : Prop :=
  self.g a = self.g b /\ self.m a = self.m b /\ self.l a = self.l b
  /\ self.dt a = self.dt b /\ self.Kp a = self.Kp b /\ self.Ki a = self.Ki b
  /\ self.Kd a = self.Kd b /\ self.force a = self.force b.

Definition no_quit (k : pyxel.frame) : Prop :=
  pyxel.btnp k pyxel.KEY_Q = false.

Definition integral_in_range (s : InvertedPendulum) : Prop :=
  -5 <= self.integral_error s <= 5.

(** The three signals a tick consumes besides quit: [toggle_pressed],
    [manual_left], [manual_right]. *)
Definition same_signals (a b : pyxel.frame) : Prop :=
  pyxel.btnp a pyxel.KEY_SPACE = pyxel.btnp b pyxel.KEY_SPACE
  /\ pyxel.btn a pyxel.KEY_LEFT = pyxel.btn b pyxel.KEY_LEFT
  /\ pyxel.btn a pyxel.KEY_RIGHT = pyxel.btn b pyxel.KEY_RIGHT.

(** What a trajectory records of the object. *)
Definition observe (s : InvertedPendulum) : R * R * R * R * R * bool :=
  (self.theta s, self.omega s, self.cart_x s, self.cart_v s,
   self.integral_error s, self.auto_control s).

(** No key down, nothing held. *)
Definition idle : pyxel.frame :=
  pyxel.mkframe (fun _ => false) (fun _ => false).

(** SPACE going down, nothing else. *)
Definition space : pyxel.frame :=
  pyxel.mkframe
    (fun key => match key with pyxel.KEY_SPACE => true | _ => false end)
    (fun _ => false).

(** LEFT and RIGHT both held. *)
Definition both_held : pyxel.frame :=
  pyxel.mkframe
    (fun _ => false)
    (fun key =>
       match key with
       | pyxel.KEY_LEFT => true
       | pyxel.KEY_RIGHT => true
       | _ => false
       end).

(** SPACE held and nothing going down: a key state [update] never polls. *)
Definition space_held : pyxel.frame :=
  pyxel.mkframe
    (fun _ => false)
    (fun key => match key with pyxel.KEY_SPACE => true | _ => false end).

(** Number of frames of [ks] on which SPACE goes down. *)
Definition toggles (ks : list pyxel.frame) : nat :=
  List.length (filter (fun k => pyxel.btnp k pyxel.KEY_SPACE) ks).

(** The object a run ends with ([s] itself when no tick completed). *)
Definition final (ks : list pyxel.frame) (s : InvertedPendulum)
  : InvertedPendulum :=
  last (run ks s) s.

(** Q going down, nothing else. *)
Definition quit_down : pyxel.frame :=
  pyxel.mkframe
    (fun key => match key with pyxel.KEY_Q => true | _ => false end)
    (fun _ => false).

(** RIGHT held, nothing else. *)
Definition right_held : pyxel.frame :=
  pyxel.mkframe
    (fun _ => false)
    (fun key => match key with pyxel.KEY_RIGHT => true | _ => false end).

(** LEFT held, nothing else. *)
Definition left_held : pyxel.frame :=
  pyxel.mkframe
    (fun _ => false)
    (fun key => match key with pyxel.KEY_LEFT => true | _ => false end).

(** [__init__] switched to manual control. *)
Definition manual_init : InvertedPendulum :=
  self.set_auto_control __init__ false.

(** * Properties *)

(** ** Python's [min] and [max] as clamps *)

Lemma py_min_Rmin (a b : R) : py.min a b = Rmin a b.
Proof.
  unfold py.min, Rmin.
  destruct (Rlt_dec b a), (Rle_dec a b); lra.
Qed.

Lemma py_max_Rmax (a b : R) : py.max a b = Rmax a b.
Proof.
  unfold py.max, Rmax.
  destruct (Rgt_dec b a), (Rle_dec a b); lra.
Qed.

Lemma clamp_bounds (lo hi x : R) :
  lo <= hi -> lo <= py.max lo (py.min hi x) <= hi.
Proof.
  intros Hlohi. unfold py.max, py.min.
  destruct (Rlt_dec x hi); destruct (Rgt_dec _ lo); lra.
Qed.

Lemma clamp_inside (lo hi x : R) :
  lo <= x <= hi -> py.max lo (py.min hi x) = x.
Proof.
  intros Hx. unfold py.max, py.min.
  destruct (Rlt_dec x hi); destruct (Rgt_dec _ lo); lra.
Qed.

Lemma clamp_above (lo hi x : R) :
  lo <= hi -> hi <= x -> py.max lo (py.min hi x) = hi.
Proof.
  intros Hlohi Hx. unfold py.max, py.min.
  destruct (Rlt_dec x hi); destruct (Rgt_dec _ lo); lra.
Qed.

Lemma clamp_below (lo hi x : R) :
  lo <= hi -> x <= lo -> py.max lo (py.min hi x) = lo.
Proof.
  intros Hlohi Hx. unfold py.max, py.min.
  destruct (Rlt_dec x hi); destruct (Rgt_dec _ lo); lra.
Qed.

(** ** The two loops of [normalize_angle] *)

Lemma while_above_step (x : R) :
  x > PI -> while_above x = while_above (x - 2 * PI).
Proof.
  intros Hx. rewrite while_above_equation_1. unfold math.pi.
  destruct (Rgt_dec x PI); [reflexivity | contradiction].
Qed.

Lemma while_above_stop (x : R) : x <= PI -> while_above x = x.
Proof.
  intros Hx. rewrite while_above_equation_1. unfold math.pi.
  destruct (Rgt_dec x PI); [lra | reflexivity].
Qed.

Lemma while_below_step (x : R) :
  x < - PI -> while_below x = while_below (x + 2 * PI).
Proof.
  intros Hx. rewrite while_below_equation_1. unfold math.pi.
  destruct (Rlt_dec x (- PI)); [reflexivity | contradiction].
Qed.

Lemma while_below_stop (x : R) : - PI <= x -> while_below x = x.
Proof.
  intros Hx. rewrite while_below_equation_1. unfold math.pi.
  destruct (Rlt_dec x (- PI)); [lra | reflexivity].
Qed.

(** The first loop leaves a value that is at most [pi], and above [-pi] as
    soon as it ran at least once. *)
Lemma while_above_range (x : R) :
  while_above x <= PI /\ (x > PI -> - PI < while_above x).
Proof.
  funelim (while_above x); unfold math.pi in *.
  - match goal with
    | IH : _ <= PI /\ _ |- _ => destruct IH as [IHle IHgt]
    end.
    split; [exact IHle | intros _].
    destruct (Rgt_dec (angle - 2 * PI) PI) as [Hgt | Hle].
    + apply IHgt, Hgt.
    + rewrite while_above_stop by lra. lra.
  - split; lra.
Qed.

(** The second loop leaves a value that is at least [-pi], and keeps it at
    most [pi] when it started there. *)
Lemma while_below_range (x : R) :
  - PI <= while_below x /\ (x <= PI -> while_below x <= PI).
Proof.
  funelim (while_below x); unfold math.pi in *.
  - match goal with
    | IH : - PI <= _ /\ _ |- _ => destruct IH as [IHge IHle]
    end.
    split; [exact IHge | intros _].
    pose proof PI_RGT_0. apply IHle. lra.
  - split; lra.
Qed.

Lemma normalize_angle_fixed (x : R) :
  - PI <= x <= PI -> normalize_angle x = x.
Proof.
  intros Hx. unfold normalize_angle.
  rewrite while_above_stop by lra. apply while_below_stop. lra.
Qed.

Lemma normalize_angle_minus_pi : normalize_angle (- PI) = - PI.
Proof.
  apply normalize_angle_fixed. pose proof PI_RGT_0. lra.
Qed.

Lemma normalize_angle_pi : normalize_angle PI = PI.
Proof.
  apply normalize_angle_fixed. pose proof PI_RGT_0. lra.
Qed.

Lemma normalize_angle_closed (x : R) : - PI <= normalize_angle x <= PI.
Proof.
  unfold normalize_angle.
  destruct (while_above_range x) as [Hle _].
  destruct (while_below_range (while_above x)) as [Hge Hkeep].
  split; [exact Hge | apply Hkeep, Hle].
Qed.

(** C5 (as amended): for every real [x], [normalize_angle x] lies in the
    closed interval from [-pi] to [pi]. *)
Theorem normalize_angle_range (x : R) :
  - PI <= normalize_angle x <= PI.
Proof.
  exact (normalize_angle_closed x).
Qed.

(** C5, the claim as stated fails: the result is not always in the
    half-open interval that excludes [-pi], since [-pi] itself is returned
    unchanged (the second loop tests [angle < -math.pi], strictly). *)
Lemma normalize_angle_not_half_open :
  ~ (forall x : R, - PI < normalize_angle x <= PI).
Proof.
  intros Hall. specialize (Hall (- PI)).
  rewrite normalize_angle_minus_pi in Hall. lra.
Qed.

(** C6 (as amended): [normalize_angle] is idempotent: normalising a
    normalised angle returns it unchanged, for every real [x].  No
    periodicity is stated. *)
Theorem normalize_angle_idempotent (x : R) :
  normalize_angle (normalize_angle x) = normalize_angle x.
Proof.
  apply normalize_angle_fixed, normalize_angle_closed.
Qed.

(** C6, the claim as stated fails at [x = -pi]: [normalize_angle] sends
    [-pi] to [-pi] but [-pi + 2 * pi] to [pi]. *)
Lemma normalize_angle_not_periodic :
  normalize_angle (- PI + 2 * PI) <> normalize_angle (- PI).
Proof.
  replace (- PI + 2 * PI) with PI by ring.
  rewrite normalize_angle_pi, normalize_angle_minus_pi.
  pose proof PI_RGT_0. lra.
Qed.

(** ** The integrator *)

Lemma py_clamp (x lo hi : R) : py.max lo (py.min hi x) = clamp x lo hi.
Proof.
  unfold clamp. rewrite py_max_Rmax, py_min_Rmin. reflexivity.
Qed.

Lemma py_div_nonzero (a b : R) : b <> 0 -> py.div a b = Return (a / b).
Proof.
  intros Hb. unfold py.div.
  destruct (Req_dec_T b 0); [contradiction | reflexivity].
Qed.

Lemma py_div_zero (a : R) : py.div a 0 = Raise ZeroDivisionError.
Proof.
  unfold py.div.
  destruct (Req_dec_T 0 0) as [_ | Hne]; [reflexivity | now destruct Hne].
Qed.

Lemma float_one : 1.0 = 1.
Proof. lra. Qed.

(** Reads the attributes of an object built by assignments, innermost
    assignment first. *)
Ltac self_simpl :=
  cbv beta iota zeta delta
    [self.set_cart_x self.set_cart_v self.set_theta self.set_omega
     self.set_integral_error self.set_auto_control
     self.g self.m self.l self.dt self.Kp self.Ki self.Kd
     self.integral_error self.prev_error self.auto_control self.theta
     self.omega self.cart_x self.cart_v self.force] in *.

Lemma integrate_step_spec (force : R) (s : InvertedPendulum) :
  self.m s <> 0 -> self.l s <> 0 ->
  integrate force s = Return (step_spec s force).
Proof.
  intros Hm Hl. unfold integrate, step_spec, math.sin, math.cos.
  rewrite (py_div_nonzero _ _ Hm). cbn [bind].
  rewrite (py_div_nonzero _ _ Hl). cbn [bind].
  destruct s. self_simpl.
  rewrite (py_div_nonzero _ _ Hm). cbn [bind].
  rewrite py_clamp, float_one.
  reflexivity.
Qed.

(** C1: one tick of the integrator, for every object whose [m] and [l] are
    not zero and every force, returns the object with exactly the updates
    of the semi-implicit Euler scheme: [alpha] from the old [theta];
    [omega] incremented by [alpha * dt] and then multiplied by
    [1 - 0.1 * dt]; [theta] incremented by the new [omega] times [dt];
    [cart_v] set to [force * dt / m], whatever it was before; [cart_x]
    incremented by the new [cart_v] and clamped to the interval from 20 to
    140. *)
Theorem integrate_semi_implicit_euler (force : R) (s : InvertedPendulum) :
  self.m s <> 0 -> self.l s <> 0 ->
  exists s',
    integrate force s = Return s'
    /\ s' = step_spec s force
    /\ (let alpha :=
          (- self.g s * cos (self.theta s)
           + force * sin (self.theta s) / self.m s) / self.l s in
        self.omega s'
        = (self.omega s + alpha * self.dt s) * (1 - 0.1 * self.dt s))
    /\ self.theta s' = self.theta s + self.omega s' * self.dt s
    /\ self.cart_v s' = force * self.dt s / self.m s
    /\ self.cart_x s' = clamp (self.cart_x s + self.cart_v s') 20 140
    /\ (forall v : R, integrate force (self.set_cart_v s v) = Return s').
Proof.
  intros Hm Hl. exists (step_spec s force).
  split; [apply integrate_step_spec; assumption |].
  repeat split; try reflexivity.
  intros v. rewrite integrate_step_spec by (destruct s; assumption).
  destruct s; reflexivity.
Qed.

Lemma integrate_semi_implicit_euler_witness :
  exists s',
    integrate 100 __init__ = Return s'
    /\ self.theta s' = self.theta __init__ + self.omega s' * self.dt __init__
    /\ self.cart_v s' = 100 * self.dt __init__ / self.m __init__.
Proof.
  assert (Hm : self.m __init__ <> 0) by (cbn; lra).
  assert (Hl : self.l __init__ <> 0) by (cbn; lra).
  destruct (integrate_semi_implicit_euler 100 __init__ Hm Hl)
    as (s' & Hret & _ & _ & Htheta & Hv & _).
  exists s'. repeat split; assumption.
Defined.

(** [integrate] returns only on the path where both divisors are not zero. *)
Lemma integrate_inv (force : R) (s s' : InvertedPendulum) :
  integrate force s = Return s' ->
  self.m s <> 0 /\ self.l s <> 0 /\ s' = step_spec s force.
Proof.
  intros Hret.
  destruct (Req_dec_T (self.m s) 0) as [Hm | Hm].
  - unfold integrate in Hret. rewrite Hm, py_div_zero in Hret.
    cbn [bind] in Hret. discriminate Hret.
  - destruct (Req_dec_T (self.l s) 0) as [Hl | Hl].
    + unfold integrate in Hret.
      rewrite (py_div_nonzero _ _ Hm) in Hret. cbn [bind] in Hret.
      rewrite Hl, py_div_zero in Hret.
      cbn [bind] in Hret. discriminate Hret.
    + rewrite (integrate_step_spec _ _ Hm Hl) in Hret.
      injection Hret as <-. auto.
Qed.

(** ** The controller *)

Lemma calculate_control_integral (s : InvertedPendulum) :
  self.integral_error (snd (calculate_control s))
  = clamp (self.integral_error s + error_of s * self.dt s) (-5) 5.
Proof.
  unfold calculate_control, error_of, math.pi. destruct s. self_simpl.
  cbn [snd]. rewrite py_clamp. f_equal; lra.
Qed.

Lemma calculate_control_frame (s : InvertedPendulum) :
  snd (calculate_control s)
  = self.set_integral_error s
      (self.integral_error (snd (calculate_control s))).
Proof.
  unfold calculate_control. destruct s. self_simpl. reflexivity.
Qed.

Lemma clamp_range (x lo hi : R) : lo <= hi -> lo <= clamp x lo hi <= hi.
Proof.
  intros Hlohi. rewrite <- py_clamp. apply clamp_bounds, Hlohi.
Qed.

(** C2: for every object whose force limit is the 100 of [__init__] (any
    angle, angular velocity and prior integral), the value returned by
    [calculate_control] is the raw PID sum
    [Kp * error + Ki * integral_error + Kd * omega] (with the integral just
    updated) clamped to the interval from -100 to 100; its magnitude is
    at most 100, and it is exactly 100, resp. -100, when the raw sum is at
    or beyond that limit. *)
Theorem calculate_control_clamped (s : InvertedPendulum) :
  self.force s = 100 ->
  let raw :=
    self.Kp s * error_of s
    + self.Ki s * clamp (self.integral_error s + error_of s * self.dt s) (-5) 5
    + self.Kd s * self.omega s in
  fst (calculate_control s) = clamp raw (-100) 100
  /\ Rabs (fst (calculate_control s)) <= 100
  /\ (100 <= raw -> fst (calculate_control s) = 100)
  /\ (raw <= -100 -> fst (calculate_control s) = -100).
Proof.
  intros Hforce raw.
  assert (Hout : fst (calculate_control s) = clamp raw (-100) 100).
  { subst raw. rewrite <- calculate_control_integral.
    unfold calculate_control, error_of, math.pi. destruct s. self_simpl.
    cbn [fst snd]. subst force. rewrite py_clamp. reflexivity. }
  rewrite Hout.
  assert (Hrange : -100 <= clamp raw (-100) 100 <= 100)
    by (apply clamp_range; lra).
  split; [reflexivity |].
  split; [apply Rabs_le; lra |].
  split; intros Hraw; rewrite <- py_clamp.
  - apply clamp_above; lra.
  - apply clamp_below; lra.
Qed.

Lemma calculate_control_clamped_witness :
  self.force __init__ = 100
  /\ Rabs (fst (calculate_control __init__)) <= 100.
Proof.
  assert (Hforce : self.force __init__ = 100) by (cbn; lra).
  split; [exact Hforce |].
  apply (calculate_control_clamped __init__ Hforce).
Defined.

(** ** One tick *)

Lemma same_config_refl (a : InvertedPendulum) : same_config a a.
Proof. repeat split. Qed.

Lemma same_config_trans (a b c : InvertedPendulum) :
  same_config a b -> same_config b c -> same_config a c.
Proof.
  unfold same_config. intros Hab Hbc.
  repeat match goal with H : _ /\ _ |- _ => destruct H end.
  repeat split; congruence.
Qed.

Lemma toggle_control_config (s : InvertedPendulum) :
  same_config (toggle_control s) s.
Proof. destruct s. repeat split. Qed.

Lemma switched_config (k : pyxel.frame) (s : InvertedPendulum) :
  same_config (switched k s) s.
Proof.
  unfold switched. destruct (pyxel.btnp k pyxel.KEY_SPACE).
  - apply toggle_control_config.
  - apply same_config_refl.
Qed.

Lemma resolve_force_config (k : pyxel.frame) (s : InvertedPendulum) :
  same_config (snd (resolve_force k s)) s.
Proof.
  unfold resolve_force. destruct (self.auto_control s).
  - rewrite calculate_control_frame. destruct s. repeat split.
  - apply same_config_refl.
Qed.

Lemma step_spec_config (s : InvertedPendulum) (force : R) :
  same_config (step_spec s force) s.
Proof. repeat split. Qed.

Lemma next_config (k : pyxel.frame) (s : InvertedPendulum) :
  same_config (next k s) s.
Proof.
  unfold next.
  eapply same_config_trans; [apply step_spec_config |].
  eapply same_config_trans; [apply resolve_force_config |].
  apply switched_config.
Qed.

(** A tick returns exactly when Q is not pressed and neither divisor is
    zero, and then it returns [next]. *)
Lemma update_next (k : pyxel.frame) (s : InvertedPendulum) :
  self.m s <> 0 -> self.l s <> 0 -> pyxel.btnp k pyxel.KEY_Q = false ->
  update k s = Return (next k s).
Proof.
  intros Hm Hl Hq. unfold update, next. rewrite Hq. fold (switched k s).
  pose proof (resolve_force_config k (switched k s)) as Hr.
  pose proof (switched_config k s) as Hs.
  destruct (resolve_force k (switched k s)) as [force s2]. cbn [fst snd] in *.
  destruct Hr as (_ & Hm2 & Hl2 & _). destruct Hs as (_ & Hm1 & Hl1 & _).
  apply integrate_step_spec; congruence.
Qed.

Lemma update_inv (k : pyxel.frame) (s s' : InvertedPendulum) :
  update k s = Return s' ->
  pyxel.btnp k pyxel.KEY_Q = false
  /\ self.m s <> 0 /\ self.l s <> 0 /\ s' = next k s.
Proof.
  intros Hret. unfold update in Hret.
  destruct (pyxel.btnp k pyxel.KEY_Q) eqn:Hq; [discriminate Hret |].
  fold (switched k s) in Hret.
  pose proof (resolve_force_config k (switched k s)) as Hr.
  pose proof (switched_config k s) as Hs.
  unfold next.
  destruct (resolve_force k (switched k s)) as [force s2]. cbn [fst snd] in *.
  destruct Hr as (_ & Hm2 & Hl2 & _). destruct Hs as (_ & Hm1 & Hl1 & _).
  apply integrate_inv in Hret. destruct Hret as (Hm & Hl & ->).
  repeat split; congruence.
Qed.

(** From an object with non-zero [m] and [l], every frame without Q is a
    completed tick. *)
Lemma run_length (ks : list pyxel.frame) (s : InvertedPendulum) :
  self.m s <> 0 -> self.l s <> 0 -> Forall no_quit ks ->
  length (run ks s) = length ks.
Proof.
  intros Hm Hl Hks. revert s Hm Hl.
  induction Hks as [| k ks Hk _ IH]; intros s Hm Hl; [reflexivity |].
  cbn [run]. rewrite (update_next k s Hm Hl Hk). cbn [length]. f_equal.
  destruct (next_config k s) as (_ & Hm' & Hl' & _).
  apply IH; congruence.
Qed.

(** An invariant of ticks is an invariant of runs. *)
Lemma run_invariant (P : InvertedPendulum -> Prop) :
  (forall k s s', P s -> update k s = Return s' -> P s') ->
  forall ks s, P s -> Forall P (run ks s).
Proof.
  intros Hstep ks. induction ks as [| k ks IH]; intros s Hs; [constructor |].
  cbn [run]. destruct (update k s) as [s' | e |] eqn:Hupd; try constructor.
  - eapply Hstep; eassumption.
  - apply IH. eapply Hstep; eassumption.
Qed.

(** ** The integral term *)

Lemma calculate_control_in_range (s : InvertedPendulum) :
  integral_in_range (snd (calculate_control s)).
Proof.
  unfold integral_in_range. rewrite calculate_control_integral.
  apply clamp_range. lra.
Qed.

Lemma toggle_control_in_range (s : InvertedPendulum) :
  integral_in_range (toggle_control s).
Proof.
  unfold integral_in_range. destruct s. cbn. lra.
Qed.

Lemma resolve_force_in_range (k : pyxel.frame) (s : InvertedPendulum) :
  integral_in_range s -> integral_in_range (snd (resolve_force k s)).
Proof.
  intros Hs. unfold resolve_force. destruct (self.auto_control s).
  - apply calculate_control_in_range.
  - exact Hs.
Qed.

Lemma update_in_range (k : pyxel.frame) (s s' : InvertedPendulum) :
  integral_in_range s -> update k s = Return s' -> integral_in_range s'.
Proof.
  intros Hs Hupd. apply update_inv in Hupd. destruct Hupd as (_ & _ & _ & ->).
  unfold next, integral_in_range. cbn [step_spec self.integral_error].
  apply resolve_force_in_range. unfold switched.
  destruct (pyxel.btnp k pyxel.KEY_SPACE).
  - apply toggle_control_in_range.
  - exact Hs.
Qed.

(** C3: starting from the 0 of [__init__], [integral_error] lies between
    -5 and 5 after every operation: in the object every [calculate_control]
    leaves (whatever the object before), in the object every mode switch
    leaves, and in the object after every tick of every run, whatever the
    keys. *)
Theorem integral_error_bounded :
  (forall s, integral_in_range (snd (calculate_control s)))
  /\ (forall s, integral_in_range (toggle_control s))
  /\ (forall ks, Forall integral_in_range (__init__ :: run ks __init__)).
Proof.
  split; [exact calculate_control_in_range |].
  split; [exact toggle_control_in_range |].
  intros ks.
  assert (Hinit : integral_in_range __init__)
    by (unfold integral_in_range; cbn; lra).
  constructor; [exact Hinit |].
  apply (run_invariant integral_in_range update_in_range), Hinit.
Qed.

(** ** The cart *)

Lemma switched_cart_x (k : pyxel.frame) (s : InvertedPendulum) :
  self.cart_x (switched k s) = self.cart_x s.
Proof.
  unfold switched. destruct (pyxel.btnp k pyxel.KEY_SPACE); [| reflexivity].
  destruct s. reflexivity.
Qed.

Lemma resolve_force_cart_x (k : pyxel.frame) (s : InvertedPendulum) :
  self.cart_x (snd (resolve_force k s)) = self.cart_x s.
Proof.
  unfold resolve_force. destruct (self.auto_control s); [| reflexivity].
  rewrite calculate_control_frame. destruct s. reflexivity.
Qed.

Lemma next_cart_x (k : pyxel.frame) (s : InvertedPendulum) :
  self.cart_x (next k s)
  = clamp (self.cart_x s + self.cart_v (next k s)) 20 140.
Proof.
  unfold next. cbn [step_spec self.cart_x self.cart_v].
  rewrite resolve_force_cart_x, switched_cart_x. reflexivity.
Qed.

(** C4: a tick on an object with non-zero [m] and [l], without Q, returns
    an object whose [cart_x] lies between 20 and 140, for every key state
    and mode and wherever the cart was: the new position is the old one
    plus the new [cart_v], saturated at the bound it would cross (140 above,
    20 below) and unchanged in between; it is never reflected. *)
Theorem update_cart_x_clamped (k : pyxel.frame) (s : InvertedPendulum) :
  self.m s <> 0 -> self.l s <> 0 -> pyxel.btnp k pyxel.KEY_Q = false ->
  exists s',
    update k s = Return s'
    /\ 20 <= self.cart_x s' <= 140
    /\ self.cart_x s' = clamp (self.cart_x s + self.cart_v s') 20 140
    /\ (140 <= self.cart_x s + self.cart_v s' -> self.cart_x s' = 140)
    /\ (self.cart_x s + self.cart_v s' <= 20 -> self.cart_x s' = 20)
    /\ (20 <= self.cart_x s + self.cart_v s' <= 140 ->
        self.cart_x s' = self.cart_x s + self.cart_v s').
Proof.
  intros Hm Hl Hq. exists (next k s).
  split; [apply update_next; assumption |].
  rewrite next_cart_x.
  split; [apply clamp_range; lra |].
  split; [reflexivity |].
  rewrite <- py_clamp.
  split; [| split]; intros Hpos.
  - apply clamp_above; lra.
  - apply clamp_below; lra.
  - apply clamp_inside; lra.
Qed.

Lemma update_cart_x_clamped_witness :
  exists s',
    update idle __init__ = Return s'
    /\ 20 <= self.cart_x s' <= 140
    /\ self.cart_x s' = clamp (self.cart_x __init__ + self.cart_v s') 20 140
    /\ (140 <= self.cart_x __init__ + self.cart_v s' -> self.cart_x s' = 140)
    /\ (self.cart_x __init__ + self.cart_v s' <= 20 -> self.cart_x s' = 20)
    /\ (20 <= self.cart_x __init__ + self.cart_v s' <= 140 ->
        self.cart_x s' = self.cart_x __init__ + self.cart_v s').
Proof.
  apply (update_cart_x_clamped idle __init__).
  - cbn. lra.
  - cbn. lra.
  - reflexivity.
Defined.

(** The cart stays in its interval along every run, from any object. *)
Lemma run_cart_x_in_range (ks : list pyxel.frame) (s : InvertedPendulum) :
  Forall (fun s' => 20 <= self.cart_x s' <= 140) (run ks s).
Proof.
  revert s. induction ks as [| k ks IH]; intros s; [constructor |].
  cbn [run]. destruct (update k s) as [s' | e |] eqn:Hupd; try constructor.
  - apply update_inv in Hupd. destruct Hupd as (_ & _ & _ & ->).
    rewrite next_cart_x. apply clamp_range. lra.
  - apply IH.
Qed.

(** ** The mode switch *)

Lemma update_switched (k : pyxel.frame) (s : InvertedPendulum) :
  update k s
  = if pyxel.btnp k pyxel.KEY_Q then Exit
    else let (force, s2) := resolve_force k (switched k s) in
         integrate force s2.
Proof. reflexivity. Qed.

Lemma toggle_control_forgets (s : InvertedPendulum) (v : R) :
  toggle_control (self.set_integral_error s v) = toggle_control s.
Proof. destruct s. reflexivity. Qed.

Lemma resolve_force_auto_control (k : pyxel.frame) (s : InvertedPendulum) :
  self.auto_control (snd (resolve_force k s)) = self.auto_control s.
Proof.
  unfold resolve_force. destruct (self.auto_control s) eqn:Hauto.
  - rewrite calculate_control_frame. destruct s. exact Hauto.
  - exact Hauto.
Qed.

Lemma resolve_force_integral (k : pyxel.frame) (s : InvertedPendulum) :
  self.integral_error (snd (resolve_force k s))
  = if self.auto_control s
    then clamp (self.integral_error s + error_of s * self.dt s) (-5) 5
    else self.integral_error s.
Proof.
  unfold resolve_force. destruct (self.auto_control s).
  - apply calculate_control_integral.
  - reflexivity.
Qed.

(** C7: on a tick that sees the toggle (SPACE going down), the mode is
    flipped and [integral_error] is set to 0 whatever it was: the tick's
    result does not depend on the prior integral, the object it returns
    is in the other mode, and its integral is 0 when the new mode is
    manual and the first accumulation step from 0 when the new mode is
    automatic.  On a tick without the toggle the mode is kept and the
    integral is not reset: it is unchanged in manual mode and accumulated,
    clamped, in automatic mode. *)
Theorem toggle_resets_integral_error (k : pyxel.frame) (s : InvertedPendulum) :
  self.m s <> 0 -> self.l s <> 0 -> pyxel.btnp k pyxel.KEY_Q = false ->
  exists s',
    update k s = Return s'
    /\ if pyxel.btnp k pyxel.KEY_SPACE
       then
         self.auto_control (toggle_control s) = negb (self.auto_control s)
         /\ self.integral_error (toggle_control s) = 0
         /\ self.auto_control s' = negb (self.auto_control s)
         /\ self.integral_error s'
            = (if self.auto_control s then 0
               else clamp (0 + error_of s * self.dt s) (-5) 5)
         /\ (forall v : R, update k (self.set_integral_error s v) = Return s')
       else
         self.auto_control s' = self.auto_control s
         /\ self.integral_error s'
            = (if self.auto_control s
               then clamp (self.integral_error s + error_of s * self.dt s)
                          (-5) 5
               else self.integral_error s).
Proof.
  intros Hm Hl Hq. exists (next k s).
  pose proof (update_next k s Hm Hl Hq) as Hupd.
  split; [exact Hupd |].
  assert (Hauto : self.auto_control (next k s)
                  = self.auto_control (switched k s))
    by (unfold next; cbn [step_spec self.auto_control];
        apply resolve_force_auto_control).
  assert (Hint : self.integral_error (next k s)
                 = self.integral_error (snd (resolve_force k (switched k s))))
    by reflexivity.
  rewrite resolve_force_integral in Hint.
  rewrite Hauto, Hint. clear Hauto Hint.
  rewrite update_switched in Hupd. revert Hupd. unfold switched.
  destruct (pyxel.btnp k pyxel.KEY_SPACE) eqn:Hspace; intros Hupd.
  - split; [destruct s; reflexivity |].
    split; [destruct s; reflexivity |].
    split; [destruct s; reflexivity |].
    split.
    + destruct s as [g m l dt Kp Ki Kd ie pe [|] th om cx cv f]; reflexivity.
    + intros v. rewrite update_switched. unfold switched.
      rewrite Hspace, toggle_control_forgets. exact Hupd.
  - split; reflexivity.
Qed.

Lemma toggle_resets_integral_error_witness :
  exists s',
    update space __init__ = Return s'
    /\ self.auto_control s' = false
    /\ self.integral_error s' = 0.
Proof.
  assert (Hm : self.m __init__ <> 0) by (cbn; lra).
  assert (Hl : self.l __init__ <> 0) by (cbn; lra).
  destruct (toggle_resets_integral_error space __init__ Hm Hl eq_refl)
    as (s' & Hupd & _ & _ & Hauto & Hint & _).
  exists s'. repeat split; assumption.
Defined.

(** ** Manual actuation *)

(** C9: in manual mode the force of the tick is [-self.force] when only
    LEFT is held, [self.force] when only RIGHT is held, 0 when neither is,
    and [self.force] when both are (the RIGHT test comes last and
    overwrites); the object is not touched, and a tick without quit and
    toggle integrates with exactly this force. *)
Theorem manual_force_right_wins (k : pyxel.frame) (s : InvertedPendulum) :
  self.auto_control s = false ->
  let force :=
    match pyxel.btn k pyxel.KEY_LEFT, pyxel.btn k pyxel.KEY_RIGHT with
    | true, false => - self.force s
    | false, true => self.force s
    | false, false => 0
    | true, true => self.force s
    end in
  resolve_force k s = (force, s)
  /\ (pyxel.btnp k pyxel.KEY_Q = false ->
      pyxel.btnp k pyxel.KEY_SPACE = false ->
      update k s = integrate force s).
Proof.
  intros Hmanual force.
  assert (Hres : resolve_force k s = (force, s)).
  { unfold resolve_force, manual_force. rewrite Hmanual. subst force.
    destruct (pyxel.btn k pyxel.KEY_LEFT), (pyxel.btn k pyxel.KEY_RIGHT);
      reflexivity. }
  split; [exact Hres |].
  intros Hq Hspace. rewrite update_switched. unfold switched.
  rewrite Hq, Hspace, Hres. reflexivity.
Qed.

Lemma manual_force_right_wins_witness :
  resolve_force both_held (self.set_auto_control __init__ false)
  = (100.0, self.set_auto_control __init__ false).
Proof.
  apply (manual_force_right_wins both_held
           (self.set_auto_control __init__ false) eq_refl).
Defined.

(** ** Determinism *)

Lemma resolve_force_same_signals (a b : pyxel.frame) (s : InvertedPendulum) :
  same_signals a b -> resolve_force a s = resolve_force b s.
Proof.
  intros (_ & Hleft & Hright). unfold resolve_force, manual_force.
  rewrite Hleft, Hright. reflexivity.
Qed.

Lemma update_same_signals (a b : pyxel.frame) (s : InvertedPendulum) :
  same_signals a b -> no_quit a -> no_quit b -> update a s = update b s.
Proof.
  intros Hsame Ha Hb. rewrite !update_switched. unfold switched.
  rewrite Ha, Hb. destruct Hsame as (Hspace & Hheld). rewrite Hspace.
  rewrite (resolve_force_same_signals a b); [reflexivity |].
  split; [exact Hspace | exact Hheld].
Qed.

(** C10: two runs that start from the same object and see, frame by frame,
    the same [toggle_pressed], [manual_left] and [manual_right] (and no
    quit) go through exactly the same objects, tick after tick; in
    particular the recorded [theta], [omega], [cart_x], [cart_v],
    [integral_error] and mode agree. *)
Theorem run_deterministic (s : InvertedPendulum) (ks1 ks2 : list pyxel.frame) :
  Forall2 same_signals ks1 ks2 -> Forall no_quit ks1 -> Forall no_quit ks2 ->
  run ks1 s = run ks2 s
  /\ map observe (run ks1 s) = map observe (run ks2 s).
Proof.
  intros Hsame Hq1 Hq2.
  assert (Hrun : run ks1 s = run ks2 s).
  { revert s Hq1 Hq2.
    induction Hsame as [| a b ks1 ks2 Hab _ IH]; intros s Hq1 Hq2.
    - reflexivity.
    - inversion Hq1 as [| ? ? Ha Hq1']; subst.
      inversion Hq2 as [| ? ? Hb Hq2']; subst.
      cbn [run]. rewrite (update_same_signals a b s Hab Ha Hb).
      destruct (update b s) as [s' | e |]; try reflexivity.
      f_equal. apply IH; assumption. }
  split; [exact Hrun | rewrite Hrun; reflexivity].
Qed.

Lemma run_deterministic_witness :
  run [idle; idle] __init__ = run [space_held; idle] __init__
  /\ map observe (run [idle; idle] __init__)
     = map observe (run [space_held; idle] __init__).
Proof.
  apply (run_deterministic __init__ [idle; idle] [space_held; idle]).
  - repeat constructor.
  - repeat constructor.
  - repeat constructor.
Defined.

(** ** Construction *)

(** C8 (as amended): the constructor takes no configuration and validates
    none.  A call succeeds exactly when it passes no argument, and then
    builds the fixed [m = 1], [l = 30], [dt = 1/60], all positive, from
    which every frame without quit is a completed tick; a call
    that passes anything fails with [TypeError], whatever the value: a
    keyword argument is refused for every name and every value, valid or
    not.  No other error comes out of construction, and no object with a
    non-positive [m], [l] or [dt] is ever built. *)
Theorem construct_validates_nothing :
  (forall a : arguments,
     match construct a with
     | Return s =>
         positional a = [] /\ keywords a = []
         /\ self.m s = 1 /\ self.l s = 30 /\ self.dt s = 1 / 60
         /\ 0 < self.m s /\ 0 < self.l s /\ 0 < self.dt s
         /\ (forall ks, Forall no_quit ks ->
              List.length (run ks s) = List.length ks)
     | Raise e =>
         e = TypeError /\ (positional a <> [] \/ keywords a <> [])
     | Exit => False
     end)
  /\ (forall (name : string) (v : R),
        construct (mkargs [] [(name, v)]) = Raise TypeError)
  /\ (forall v : R, construct (mkargs [v] []) = Raise TypeError).
Proof.
  split; [| split; reflexivity].
  intros [[| p ps] [| kw kws]]; cbn.
  - repeat (split; [first [reflexivity | lra] |]).
    intros ks Hks. apply run_length; [cbn; lra | cbn; lra | exact Hks].
  - split; [reflexivity | right; discriminate].
  - split; [reflexivity | left; discriminate].
  - split; [reflexivity | left; discriminate].
Qed.

(** C8, the claim as stated fails: a valid configuration handed to the
    constructor does not construct anything, and the error for [m = 0] is
    the [TypeError] every argument gets, raised by the call and not by a
    check of the value. *)
Lemma valid_configuration_refused :
  construct (mkargs [] [("m"%string, 1); ("l"%string, 30);
                        ("dt"%string, 1 / 60)])
  = Raise TypeError
  /\ construct (mkargs [] [("m"%string, 0)]) = Raise TypeError.
Proof.
  split; reflexivity.
Qed.

(** * Further properties of the code *)

(** ** [update]: how a tick can end *)

Lemma integrate_raises (force : R) (s : InvertedPendulum) :
  self.m s = 0 \/ self.l s = 0 ->
  integrate force s = Raise ZeroDivisionError.
Proof.
  intros Hzero. unfold integrate.
  destruct (Req_dec_T (self.m s) 0) as [Hm | Hm].
  - rewrite Hm, py_div_zero. reflexivity.
  - destruct Hzero as [Hm0 | Hl]; [contradiction |].
    rewrite (py_div_nonzero _ _ Hm). cbn [bind].
    rewrite Hl, py_div_zero. reflexivity.
Qed.

Lemma update_raises (k : pyxel.frame) (s : InvertedPendulum) :
  pyxel.btnp k pyxel.KEY_Q = false ->
  self.m s = 0 \/ self.l s = 0 ->
  update k s = Raise ZeroDivisionError.
Proof.
  intros Hq Hzero. rewrite update_switched, Hq.
  pose proof (resolve_force_config k (switched k s)) as Hr.
  pose proof (switched_config k s) as Hs.
  destruct (resolve_force k (switched k s)) as [force s2]. cbn [fst snd] in *.
  destruct Hr as (_ & Hm2 & Hl2 & _). destruct Hs as (_ & Hm1 & Hl1 & _).
  apply integrate_raises. destruct Hzero; [left | right]; congruence.
Qed.

Lemma update_exits (k : pyxel.frame) (s : InvertedPendulum) :
  pyxel.btnp k pyxel.KEY_Q = true -> update k s = Exit.
Proof.
  intros Hq. rewrite update_switched, Hq. reflexivity.
Qed.

(** X4: a tick ends the process exactly when Q goes down (whatever else is
    pressed), raises [ZeroDivisionError] exactly when Q is not pressed and
    [m] or [l] is zero, and returns an object exactly when Q is not pressed
    and neither is zero. *)
Theorem update_outcome (k : pyxel.frame) (s : InvertedPendulum) :
  (update k s = Exit <-> pyxel.btnp k pyxel.KEY_Q = true)
  /\ (update k s = Raise ZeroDivisionError
      <-> pyxel.btnp k pyxel.KEY_Q = false
          /\ (self.m s = 0 \/ self.l s = 0))
  /\ ((exists s', update k s = Return s')
      <-> pyxel.btnp k pyxel.KEY_Q = false
          /\ self.m s <> 0 /\ self.l s <> 0).
Proof.
  destruct (pyxel.btnp k pyxel.KEY_Q) eqn:Hq.
  - rewrite (update_exits k s Hq).
    split; [tauto |].
    split; [split; [discriminate | intros [Hf _]; discriminate] |].
    split; [intros [s' Hs']; discriminate | intros [Hf _]; discriminate].
  - destruct (Req_dec_T (self.m s) 0) as [Hm | Hm].
    + rewrite (update_raises k s Hq (or_introl Hm)).
      split; [split; discriminate |].
      split; [tauto |].
      split; [intros [s' Hs']; discriminate | tauto].
    + destruct (Req_dec_T (self.l s) 0) as [Hl | Hl].
      * rewrite (update_raises k s Hq (or_intror Hl)).
        split; [split; discriminate |].
        split; [tauto |].
        split; [intros [s' Hs']; discriminate | tauto].
      * rewrite (update_next k s Hm Hl Hq).
        split; [split; discriminate |].
        split; [split; [discriminate | tauto] |].
        split; [tauto | intros _; eexists; reflexivity].
Qed.

(** ** [pyxel.run]: runs of ticks *)

Lemma last_cons_default (A : Type) (a d : A) (xs : list A) :
  last (a :: xs) d = last xs a.
Proof.
  revert a d. induction xs as [| b xs IH]; intros a d; [reflexivity |].
  change (last (a :: b :: xs) d) with (last (b :: xs) d).
  rewrite (IH b d), (IH b a). reflexivity.
Qed.

Lemma final_cons (k : pyxel.frame) (ks : list pyxel.frame)
      (s s' : InvertedPendulum) :
  update k s = Return s' -> final (k :: ks) s = final ks s'.
Proof.
  intros Hupd. unfold final. cbn [run]. rewrite Hupd.
  apply last_cons_default.
Qed.

(** X5: nothing after a quit is processed: a run over frames that contain
    a frame with Q going down is the run over the frames before it. *)
Theorem run_stops_at_quit (ks1 ks2 : list pyxel.frame) (q : pyxel.frame)
        (s : InvertedPendulum) :
  pyxel.btnp q pyxel.KEY_Q = true ->
  run (ks1 ++ q :: ks2) s = run ks1 s.
Proof.
  intros Hq. revert s.
  induction ks1 as [| k ks1 IH]; intros s.
  - cbn [app run]. rewrite (update_exits q s Hq). reflexivity.
  - cbn [app run]. destruct (update k s) as [s' | e |]; try reflexivity.
    f_equal. apply IH.
Qed.

Lemma run_stops_at_quit_witness :
  run ([idle; space] ++ quit_down :: [idle; idle]) __init__
  = run [idle; space] __init__.
Proof.
  apply (run_stops_at_quit [idle; space] [idle; idle] quit_down __init__).
  reflexivity.
Defined.

Lemma switched_prev_error (k : pyxel.frame) (s : InvertedPendulum) :
  self.prev_error (switched k s) = self.prev_error s.
Proof.
  unfold switched. destruct (pyxel.btnp k pyxel.KEY_SPACE); [| reflexivity].
  destruct s. reflexivity.
Qed.

Lemma resolve_force_prev_error (k : pyxel.frame) (s : InvertedPendulum) :
  self.prev_error (snd (resolve_force k s)) = self.prev_error s.
Proof.
  unfold resolve_force. destruct (self.auto_control s); [| reflexivity].
  rewrite calculate_control_frame. destruct s. reflexivity.
Qed.

Lemma next_prev_error (k : pyxel.frame) (s : InvertedPendulum) :
  self.prev_error (next k s) = self.prev_error s.
Proof.
  unfold next. cbn [step_spec self.prev_error].
  rewrite resolve_force_prev_error. apply switched_prev_error.
Qed.

(** X7: no tick writes the physical parameters, the gains, the force
    limit or [prev_error]: every object of every run has those of the
    object the run started from. *)
Theorem run_keeps_config (ks : list pyxel.frame) (s : InvertedPendulum) :
  Forall (fun s' => same_config s' s
                    /\ self.prev_error s' = self.prev_error s)
         (run ks s).
Proof.
  apply (run_invariant
           (fun s' => same_config s' s
                      /\ self.prev_error s' = self.prev_error s)).
  - intros k a b [Hcfg Hprev] Hupd.
    apply update_inv in Hupd. destruct Hupd as (_ & _ & _ & ->).
    split.
    + eapply same_config_trans; [apply next_config | exact Hcfg].
    + rewrite next_prev_error. exact Hprev.
  - split; [apply same_config_refl | reflexivity].
Qed.

Lemma next_auto_control (k : pyxel.frame) (s : InvertedPendulum) :
  self.auto_control (next k s)
  = xorb (self.auto_control s) (pyxel.btnp k pyxel.KEY_SPACE).
Proof.
  unfold next. cbn [step_spec self.auto_control].
  rewrite resolve_force_auto_control. unfold switched.
  destruct (pyxel.btnp k pyxel.KEY_SPACE), s as
    [g m l dt Kp Ki Kd ie pe [|] th om cx cv f]; reflexivity.
Qed.

Lemma toggles_cons (k : pyxel.frame) (ks : list pyxel.frame) :
  toggles (k :: ks)
  = if pyxel.btnp k pyxel.KEY_SPACE then S (toggles ks) else toggles ks.
Proof.
  unfold toggles. cbn [filter].
  destruct (pyxel.btnp k pyxel.KEY_SPACE); reflexivity.
Qed.

(** X8: the mode a run ends in depends only on how many frames saw SPACE
    go down: from an object with non-zero [m] and [l] and without quit, it
    is the starting mode after an even number of toggles and the other
    mode after an odd number. *)
Theorem final_mode_parity (ks : list pyxel.frame) (s : InvertedPendulum) :
  self.m s <> 0 -> self.l s <> 0 -> Forall no_quit ks ->
  self.auto_control (final ks s)
  = xorb (self.auto_control s) (Nat.odd (toggles ks)).
Proof.
  intros Hm Hl Hks. revert s Hm Hl.
  induction Hks as [| k ks Hk _ IH]; intros s Hm Hl.
  - cbn. destruct (self.auto_control s); reflexivity.
  - rewrite (final_cons k ks s _ (update_next k s Hm Hl Hk)).
    destruct (next_config k s) as (_ & Hm' & Hl' & _).
    rewrite IH by congruence.
    rewrite next_auto_control, toggles_cons.
    destruct (pyxel.btnp k pyxel.KEY_SPACE).
    + rewrite Nat.odd_succ, <- Nat.negb_odd.
      destruct (self.auto_control s), (Nat.odd (toggles ks)); reflexivity.
    + destruct (self.auto_control s), (Nat.odd (toggles ks)); reflexivity.
Qed.

Lemma final_mode_parity_witness :
  self.auto_control (final [space; idle; space; space] __init__) = false.
Proof.
  assert (Hm : self.m __init__ <> 0) by (cbn; lra).
  assert (Hl : self.l __init__ <> 0) by (cbn; lra).
  assert (Hks : Forall no_quit [space; idle; space; space])
    by (repeat constructor).
  exact (final_mode_parity [space; idle; space; space] __init__ Hm Hl Hks).
Defined.

(** X9: in automatic mode the arrow keys do nothing: two frames that agree
    on Q and SPACE going down give the same tick whenever the mode after
    the switch is automatic, whatever is held. *)
Theorem auto_ignores_arrows (a b : pyxel.frame) (s : InvertedPendulum) :
  pyxel.btnp a pyxel.KEY_Q = pyxel.btnp b pyxel.KEY_Q ->
  pyxel.btnp a pyxel.KEY_SPACE = pyxel.btnp b pyxel.KEY_SPACE ->
  self.auto_control (switched a s) = true ->
  update a s = update b s.
Proof.
  intros Hq Hspace Hauto. rewrite !update_switched.
  assert (Hsw : switched b s = switched a s)
    by (unfold switched; rewrite Hspace; reflexivity).
  rewrite Hsw, Hq. unfold resolve_force. rewrite Hauto. reflexivity.
Qed.

Lemma auto_ignores_arrows_witness :
  update idle __init__ = update both_held __init__.
Proof.
  apply (auto_ignores_arrows idle both_held __init__); reflexivity.
Defined.

(** ** The force and the cart *)

Lemma resolve_force_bounded (k : pyxel.frame) (s : InvertedPendulum) :
  0 <= self.force s ->
  - self.force s <= fst (resolve_force k s) <= self.force s.
Proof.
  intros Hf. unfold resolve_force. destruct (self.auto_control s).
  - unfold calculate_control. destruct s. self_simpl. cbn [fst].
    apply clamp_bounds. lra.
  - cbn [fst]. unfold manual_force.
    destruct (pyxel.btn k pyxel.KEY_LEFT), (pyxel.btn k pyxel.KEY_RIGHT); lra.
Qed.

Lemma next_cart_v (k : pyxel.frame) (s : InvertedPendulum) :
  self.cart_v (next k s)
  = fst (resolve_force k (switched k s)) * self.dt s / self.m s.
Proof.
  unfold next. cbn [step_spec self.cart_v].
  destruct (resolve_force_config k (switched k s)) as (_ & Hm & _ & Hdt & _).
  destruct (switched_config k s) as (_ & Hm' & _ & Hdt' & _).
  rewrite Hm, Hdt, Hm', Hdt'. reflexivity.
Qed.

(** X10: the cart's speed is bounded by the force limit: on every tick
    from an object with [m > 0], [dt >= 0], [force >= 0] and non-zero [l],
    in either mode and whatever the keys, the new [cart_v] has magnitude
    at most [force * dt / m]. *)
Theorem cart_speed_bounded (k : pyxel.frame) (s : InvertedPendulum) :
  0 < self.m s -> self.l s <> 0 -> 0 <= self.dt s -> 0 <= self.force s ->
  pyxel.btnp k pyxel.KEY_Q = false ->
  exists s',
    update k s = Return s'
    /\ Rabs (self.cart_v s') <= self.force s * self.dt s / self.m s.
Proof.
  intros Hm Hl Hdt Hf Hq. exists (next k s).
  split; [apply update_next; [lra | exact Hl | exact Hq] |].
  rewrite next_cart_v.
  assert (HF : - self.force s <= fst (resolve_force k (switched k s))
               <= self.force s).
  { destruct (switched_config k s) as (_ & _ & _ & _ & _ & _ & _ & Hfs).
    rewrite <- Hfs. apply resolve_force_bounded. rewrite Hfs. exact Hf. }
  set (F := fst (resolve_force k (switched k s))) in *.
  assert (Hc : 0 <= self.dt s / self.m s).
  { apply Rmult_le_pos; [exact Hdt |].
    left. apply Rinv_0_lt_compat, Hm. }
  unfold Rdiv in *. rewrite !Rmult_assoc.
  apply Rabs_le. split; nra.
Qed.

Lemma cart_speed_bounded_witness :
  exists s',
    update both_held __init__ = Return s'
    /\ Rabs (self.cart_v s')
       <= self.force __init__ * self.dt __init__ / self.m __init__.
Proof.
  assert (Hm : 0 < self.m __init__) by (cbn; lra).
  assert (Hl : self.l __init__ <> 0) by (cbn; lra).
  assert (Hdt : 0 <= self.dt __init__) by (cbn; lra).
  assert (Hf : 0 <= self.force __init__) by (cbn; lra).
  exact (cart_speed_bounded both_held __init__ Hm Hl Hdt Hf eq_refl).
Defined.

Lemma switched_no_space (k : pyxel.frame) (s : InvertedPendulum) :
  pyxel.btnp k pyxel.KEY_SPACE = false -> switched k s = s.
Proof.
  intros Hspace. unfold switched. rewrite Hspace. reflexivity.
Qed.

Lemma next_manual (k : pyxel.frame) (s : InvertedPendulum) :
  self.auto_control s = false -> pyxel.btnp k pyxel.KEY_SPACE = false ->
  next k s = step_spec s (manual_force k s).
Proof.
  intros Hmanual Hspace. unfold next.
  rewrite (switched_no_space k s Hspace). unfold resolve_force.
  rewrite Hmanual. reflexivity.
Qed.

(** X11: driving right by hand: in manual mode, on a tick with RIGHT held
    (LEFT held or not) and neither toggle nor quit, for [m], [dt] and
    [force] positive, the cart velocity becomes [force * dt / m] and a
    cart left of 140 moves strictly right without passing 140; a cart at
    140 or beyond ends at 140. *)
Theorem manual_right_drives_cart (k : pyxel.frame) (s : InvertedPendulum) :
  self.auto_control s = false ->
  pyxel.btnp k pyxel.KEY_Q = false -> pyxel.btnp k pyxel.KEY_SPACE = false ->
  pyxel.btn k pyxel.KEY_RIGHT = true ->
  0 < self.m s -> self.l s <> 0 -> 0 < self.dt s -> 0 < self.force s ->
  exists s',
    update k s = Return s'
    /\ self.cart_v s' = self.force s * self.dt s / self.m s
    /\ (self.cart_x s < 140 -> self.cart_x s < self.cart_x s' <= 140)
    /\ (140 <= self.cart_x s -> self.cart_x s' = 140).
Proof.
  intros Hmanual Hq Hspace Hright Hm Hl Hdt Hf. exists (next k s).
  split; [apply update_next; [lra | exact Hl | exact Hq] |].
  assert (Hforce : manual_force k s = self.force s).
  { unfold manual_force. rewrite Hright. reflexivity. }
  assert (Hv : self.cart_v (next k s)
               = self.force s * self.dt s / self.m s).
  { rewrite (next_manual k s Hmanual Hspace), Hforce. reflexivity. }
  assert (Hpos : 0 < self.force s * self.dt s / self.m s).
  { apply Rdiv_lt_0_compat; [apply Rmult_lt_0_compat |]; assumption. }
  split; [exact Hv |].
  rewrite next_cart_x, Hv. rewrite <- py_clamp. unfold py.max, py.min.
  split; intros Hx;
    destruct (Rlt_dec _ 140); destruct (Rgt_dec _ 20); lra.
Qed.

Lemma manual_right_drives_cart_witness :
  exists s',
    update right_held manual_init = Return s'
    /\ self.cart_x manual_init < self.cart_x s' <= 140.
Proof.
  assert (Hm : 0 < self.m manual_init) by (cbn; lra).
  assert (Hl : self.l manual_init <> 0) by (cbn; lra).
  assert (Hdt : 0 < self.dt manual_init) by (cbn; lra).
  assert (Hf : 0 < self.force manual_init) by (cbn; lra).
  assert (Hx : self.cart_x manual_init < 140) by (cbn; lra).
  destruct (manual_right_drives_cart right_held manual_init
              eq_refl eq_refl eq_refl eq_refl Hm Hl Hdt Hf)
    as (s' & Hupd & _ & Hmove & _).
  exists s'. split; [exact Hupd | exact (Hmove Hx)].
Defined.

(** X12: driving left by hand: in manual mode, on a tick with LEFT held,
    RIGHT not held and neither toggle nor quit, for [m], [dt] and [force]
    positive, the cart velocity becomes [- force * dt / m] and a cart
    right of 20 moves strictly left without passing 20; a cart at 20 or
    below ends at 20. *)
Theorem manual_left_drives_cart (k : pyxel.frame) (s : InvertedPendulum) :
  self.auto_control s = false ->
  pyxel.btnp k pyxel.KEY_Q = false -> pyxel.btnp k pyxel.KEY_SPACE = false ->
  pyxel.btn k pyxel.KEY_LEFT = true -> pyxel.btn k pyxel.KEY_RIGHT = false ->
  0 < self.m s -> self.l s <> 0 -> 0 < self.dt s -> 0 < self.force s ->
  exists s',
    update k s = Return s'
    /\ self.cart_v s' = - self.force s * self.dt s / self.m s
    /\ (20 < self.cart_x s -> 20 <= self.cart_x s' < self.cart_x s)
    /\ (self.cart_x s <= 20 -> self.cart_x s' = 20).
Proof.
  intros Hmanual Hq Hspace Hleft Hright Hm Hl Hdt Hf. exists (next k s).
  split; [apply update_next; [lra | exact Hl | exact Hq] |].
  assert (Hforce : manual_force k s = - self.force s).
  { unfold manual_force. rewrite Hleft, Hright. reflexivity. }
  assert (Hv : self.cart_v (next k s)
               = - self.force s * self.dt s / self.m s).
  { rewrite (next_manual k s Hmanual Hspace), Hforce. reflexivity. }
  assert (Hpos : 0 < self.force s * self.dt s / self.m s).
  { apply Rdiv_lt_0_compat; [apply Rmult_lt_0_compat |]; assumption. }
  assert (Hneg : - self.force s * self.dt s / self.m s
                 = - (self.force s * self.dt s / self.m s))
    by (field; lra).
  split; [exact Hv |].
  rewrite next_cart_x, Hv, Hneg. rewrite <- py_clamp. unfold py.max, py.min.
  split; intros Hx;
    destruct (Rlt_dec _ 140); destruct (Rgt_dec _ 20); lra.
Qed.

Lemma manual_left_drives_cart_witness :
  exists s',
    update left_held manual_init = Return s'
    /\ 20 <= self.cart_x s' < self.cart_x manual_init.
Proof.
  assert (Hm : 0 < self.m manual_init) by (cbn; lra).
  assert (Hl : self.l manual_init <> 0) by (cbn; lra).
  assert (Hdt : 0 < self.dt manual_init) by (cbn; lra).
  assert (Hf : 0 < self.force manual_init) by (cbn; lra).
  assert (Hx : 20 < self.cart_x manual_init) by (cbn; lra).
  destruct (manual_left_drives_cart left_held manual_init
              eq_refl eq_refl eq_refl eq_refl eq_refl Hm Hl Hdt Hf)
    as (s' & Hupd & _ & Hmove & _).
  exists s'. split; [exact Hupd | exact (Hmove Hx)].
Defined.

(** X14: hands off in manual mode: on a manual tick with no arrow held
    (and neither toggle nor quit) the force is 0, so [cart_v] becomes 0, a
    cart inside its interval stays where it is, and the pendulum moves
    under gravity and damping alone; when it is at rest on the vertical
    ([cos theta = 0], [omega = 0]) it stays there. *)
Theorem manual_hands_off (k : pyxel.frame) (s : InvertedPendulum) :
  self.auto_control s = false ->
  pyxel.btnp k pyxel.KEY_Q = false -> pyxel.btnp k pyxel.KEY_SPACE = false ->
  pyxel.btn k pyxel.KEY_LEFT = false -> pyxel.btn k pyxel.KEY_RIGHT = false ->
  self.m s <> 0 -> self.l s <> 0 ->
  exists s',
    update k s = Return s'
    /\ self.cart_v s' = 0
    /\ (20 <= self.cart_x s <= 140 -> self.cart_x s' = self.cart_x s)
    /\ self.omega s'
       = (self.omega s - self.g s * cos (self.theta s) / self.l s * self.dt s)
         * (1 - 0.1 * self.dt s)
    /\ (cos (self.theta s) = 0 -> self.omega s = 0 ->
        self.theta s' = self.theta s /\ self.omega s' = 0).
Proof.
  intros Hmanual Hq Hspace Hleft Hright Hm Hl. exists (next k s).
  split; [apply update_next; assumption |].
  assert (Hforce : manual_force k s = 0).
  { unfold manual_force. rewrite Hleft, Hright. reflexivity. }
  rewrite (next_manual k s Hmanual Hspace), Hforce.
  unfold step_spec. destruct s. self_simpl.
  split; [unfold Rdiv; ring |].
  split.
  - intros Hx. rewrite <- py_clamp, clamp_inside by (unfold Rdiv; lra).
    unfold Rdiv. ring.
  - split; [unfold Rdiv; ring |].
    intros Hcos Hom. rewrite Hcos, Hom. split; unfold Rdiv; ring.
Qed.

Lemma manual_hands_off_witness :
  exists s',
    update idle manual_init = Return s'
    /\ self.cart_v s' = 0
    /\ self.cart_x s' = self.cart_x manual_init.
Proof.
  assert (Hm : self.m manual_init <> 0) by (cbn; lra).
  assert (Hl : self.l manual_init <> 0) by (cbn; lra).
  assert (Hx : 20 <= self.cart_x manual_init <= 140) by (cbn; lra).
  destruct (manual_hands_off idle manual_init
              eq_refl eq_refl eq_refl eq_refl eq_refl Hm Hl)
    as (s' & Hupd & Hv & Hstay & _).
  exists s'. split; [exact Hupd | split; [exact Hv | exact (Hstay Hx)]].
Defined.

(** ** [draw] *)

(** X16: after every tick the cart is drawn inside the 160-pixel-wide
    window: the 20-by-10 rectangle [draw] makes for the object a tick
    returns starts at an [x] of at least 10 and ends at most at 150. *)
Theorem cart_drawn_on_screen (k : pyxel.frame) (s : InvertedPendulum) :
  self.m s <> 0 -> self.l s <> 0 -> pyxel.btnp k pyxel.KEY_Q = false ->
  exists (s' : InvertedPendulum) (x : R),
    update k s = Return s'
    /\ In (pyxel.rect x 90 20 10 5) (draw s')
    /\ 10 <= x /\ x + 20 <= 150.
Proof.
  intros Hm Hl Hq.
  exists (next k s), (self.cart_x (next k s) - 10).
  split; [apply update_next; assumption |].
  split; [unfold draw; cbn [In]; tauto |].
  pose proof (next_cart_x k s) as Hx.
  pose proof (clamp_range
                (self.cart_x s + self.cart_v (next k s)) 20 140) as Hrange.
  rewrite <- Hx in Hrange. lra.
Qed.

Lemma cart_drawn_on_screen_witness :
  exists (s' : InvertedPendulum) (x : R),
    update right_held __init__ = Return s'
    /\ In (pyxel.rect x 90 20 10 5) (draw s')
    /\ 10 <= x /\ x + 20 <= 150.
Proof.
  apply (cart_drawn_on_screen right_held __init__).
  - cbn. lra.
  - cbn. lra.
  - reflexivity.
Defined.

(** X17: the mode label is truthful and unique: [draw] writes
    "Auto Control" exactly when the object is in automatic mode and
    "Manual Control" exactly when it is not, at position (5, 35), and
    never both. *)
Theorem draw_mode_label (s : InvertedPendulum) :
  (In (pyxel.text 5 35 "Auto Control" 0) (draw s)
   <-> self.auto_control s = true)
  /\ (In (pyxel.text 5 35 "Manual Control" 0) (draw s)
      <-> self.auto_control s = false).
Proof.
  unfold draw. cbn [In].
  destruct (self.auto_control s); split; split; intros H;
    first
      [ reflexivity
      | discriminate H
      | solve [repeat (first [left; reflexivity | right])]
      | repeat (destruct H as [H | H]; [discriminate H |]); destruct H ].
Qed.

(** ** Runs never raise midway *)

(** X18: a division can only fail on the first tick: from an object whose
    [m] and [l] are not zero, a run over frames without quit completes a
    tick for every frame. *)
Theorem run_completes (ks : list pyxel.frame) (s : InvertedPendulum) :
  self.m s <> 0 -> self.l s <> 0 -> Forall no_quit ks ->
  List.length (run ks s) = List.length ks.
Proof.
  intros Hm Hl Hks. exact (run_length ks s Hm Hl Hks).
Qed.

Lemma run_completes_witness :
  List.length (run [right_held; space; left_held] manual_init) = 3%nat.
Proof.
  assert (Hm : self.m manual_init <> 0) by (cbn; lra).
  assert (Hl : self.l manual_init <> 0) by (cbn; lra).
  assert (Hks : Forall no_quit [right_held; space; left_held])
    by (repeat constructor).
  exact (run_completes [right_held; space; left_held] manual_init Hm Hl Hks).
Defined.

(** ** The cart does not act back *)

Lemma next_set_cart_x (k : pyxel.frame) (s : InvertedPendulum) (x : R) :
  next k (self.set_cart_x s x)
  = self.set_cart_x (next k s)
      (clamp (x + self.cart_v (next k s)) 20 140).
Proof.
  unfold next, switched, resolve_force, toggle_control, calculate_control.
  destruct s as [g m l dt Kp Ki Kd ie pe auto th om cx cv f].
  destruct (pyxel.btnp k pyxel.KEY_SPACE), auto;
    self_simpl; cbn [negb fst snd]; unfold step_spec; self_simpl;
    reflexivity.
Qed.

(** X19: the cart's position never acts back on the pendulum or on the
    controller: moving the cart anywhere before a tick changes nothing in
    the returned object but [cart_x]; the angle, the angular velocity, the
    integral, the mode and [cart_v] come out the same (so a cart pressed
    against a bound still pushes the pendulum). *)
Theorem cart_x_does_not_act_back (k : pyxel.frame) (s : InvertedPendulum)
        (x : R) :
  self.m s <> 0 -> self.l s <> 0 -> pyxel.btnp k pyxel.KEY_Q = false ->
  exists a b : InvertedPendulum,
    update k s = Return a
    /\ update k (self.set_cart_x s x) = Return b
    /\ b = self.set_cart_x a (self.cart_x b)
    /\ self.theta b = self.theta a /\ self.omega b = self.omega a
    /\ self.integral_error b = self.integral_error a
    /\ self.auto_control b = self.auto_control a
    /\ self.cart_v b = self.cart_v a.
Proof.
  intros Hm Hl Hq.
  exists (next k s), (next k (self.set_cart_x s x)).
  split; [apply update_next; assumption |].
  split; [apply update_next; [destruct s; exact Hm
                             | destruct s; exact Hl | exact Hq] |].
  rewrite next_set_cart_x.
  destruct (next k s). repeat split.
Qed.

Lemma cart_x_does_not_act_back_witness :
  exists a b : InvertedPendulum,
    update idle __init__ = Return a
    /\ update idle (self.set_cart_x __init__ 140) = Return b
    /\ self.theta b = self.theta a /\ self.omega b = self.omega a.
Proof.
  assert (Hm : self.m __init__ <> 0) by (cbn; lra).
  assert (Hl : self.l __init__ <> 0) by (cbn; lra).
  destruct (cart_x_does_not_act_back idle __init__ 140 Hm Hl eq_refl)
    as (a & b & Ha & Hb & _ & Hth & Hom & _).
  exists a, b. repeat split; assumption.
Defined.

